(** * Deferred window descriptors of [ts.flint.windows]

    A shallow embedding of [src/python/ts/flint/windows.py]: the two
    classes [WindowsFactoryBase] and [WindowsFactory], the two public
    factory functions, and the Python machinery the module leans on
    (object allocation, attribute assignment, [str], the [%] operator on
    strings, [str.join], exceptions). *)

From stdpp Require Import base option list strings gmap.
From Stdlib Require Import Ascii ZArith DecimalString.

Local Open Scope string_scope.

(** ** Exceptions and results *)

(** The exceptions that can come out of the module.  An exception value
    stands for the raised object: two results raise "the same error" when
    the values are equal (same class, same payload). *)
Inductive PyExn : Type :=
| AttributeError (obj_type attr : string)
| TypeError (msg : string)
| ValueError (msg : string)
| SystemError (msg : string)
| ExternalError (cls msg : string).

(** Rendering of an exception's message, as Python prints it. *)
Definition exn_message (e : PyExn) : string :=
  match e with
  | AttributeError t a => "'" +:+ t +:+ "' object has no attribute '" +:+ a +:+ "'"
  | TypeError m | ValueError m | SystemError m | ExternalError _ m => m
  end.

Inductive Result (A : Type) : Type :=
| Ok (a : A)
| Raise (e : PyExn).
Arguments Ok {A} a.
Arguments Raise {A} e.

Definition rbind {A B} (r : Result A) (k : A -> Result B) : Result B :=
  match r with
  | Ok a => k a
  | Raise e => Raise e
  end.

Declare Scope py_scope.
Delimit Scope py_scope with py.
Notation "x <~ r ;; k" := (rbind r (fun x => k))
  (at level 100, r at next level, right associativity) : py_scope.

(** ** Values *)

(** The values that travel through the module as constructor arguments
    and as resolved windows.  The module looks at an argument in one way
    only, through [str]; an object of any other type is therefore given by
    its identity and by what its string conversion does. *)
Inductive PyVal : Type :=
| VNone
| VBool (b : bool)
| VInt (z : Z)
| VStr (s : string)
| VObject (id : nat) (to_str : Result string).

(** Python's [str(v)]. *)
Definition str (v : PyVal) : Result string :=
  match v with
  | VNone => Ok "None"
  | VBool true => Ok "True"
  | VBool false => Ok "False"
  | VInt z => Ok (NilZero.string_of_int (Z.to_int z))
  | VStr s => Ok s
  | VObject _ o => o
  end.

(** [[str(arg) for arg in args]]: the conversions run left to right and
    the first one that raises ends the iteration. *)
Fixpoint str_each (args : list PyVal) : Result (list string) :=
  match args with
  | [] => Ok []
  | a :: rest =>
      (s <~ str a ;;
       ss <~ str_each rest ;;
       Ok (s :: ss))%py
  end.

(** [sep.join(items)]: the first item, then separator and item for each
    of the others. *)
Definition join (sep : string) (items : list string) : string :=
  match items with
  | [] => ""
  | x :: rest => fold_left (fun acc y => acc +:+ sep +:+ y) rest x
  end.

(** [fmt % args] for the conversions [%s] and [%%].  [pending] says that
    the previous character was an unconsumed percent sign. *)
Fixpoint format_from (pending : bool) (fmt : string) (args : list PyVal)
  : Result string :=
  match fmt with
  | EmptyString =>
      if pending then Raise (ValueError "incomplete format")
      else match args with
           | [] => Ok ""
           | _ :: _ =>
               Raise (TypeError "not all arguments converted during string formatting")
           end
  | String c rest =>
      if pending then
        if Ascii.eqb c "s"%char then
          match args with
          | [] => Raise (TypeError "not enough arguments for format string")
          | a :: args' =>
              (s <~ str a ;;
               r <~ format_from false rest args' ;;
               Ok (s +:+ r))%py
          end
        else if Ascii.eqb c "%"%char then
          (r <~ format_from false rest args ;; Ok (String c r))%py
        else Raise (ValueError "unsupported format character")
      else if Ascii.eqb c "%"%char then format_from true rest args
      else (r <~ format_from false rest args ;; Ok (String c r))%py
  end.

Definition format (fmt : string) (args : list PyVal) : Result string :=
  format_from false fmt args.

(** ** Objects, the heap and the external engine *)

(** The two classes of the module. *)
Inductive Class : Type :=
| WindowsFactoryBase
| WindowsFactory.

Definition class_name (c : Class) : string :=
  match c with
  | WindowsFactoryBase => "WindowsFactoryBase"
  | WindowsFactory => "WindowsFactory"
  end.

(** An instance of one of the classes.  Its two attributes are unset
    between allocation and the assignments of [__init__].  The operation
    name is a string: the module only ever passes a string literal. *)
Record Instance : Type := {
  __class__ : Class;
  _func : option string;
  _args : option (list PyVal)
}.

(** Objects are referred to by their address, the index in the heap. *)
Definition addr : Type := nat.

(** The state a call runs in: the heap of this module's objects and the
    state of the external engine, of some type [E]. *)
Record State (E : Type) : Type := {
  heap : list Instance;
  engine : E
}.
Arguments heap {E} _.
Arguments engine {E} _.

(** A window constructor of the external engine: called with positional
    arguments, it returns a window or raises, and may change the engine.
    It is handed the arguments only, so it has no access to the heap. *)
Definition Callable (E : Type) : Type :=
  list PyVal -> E -> Result PyVal * E.

(** The context-bound registry: the engine's class object, with the
    window constructors it has. *)
Record Registry (E : Type) : Type := {
  reg_class : string;
  reg_members : gmap string (Callable E)
}.
Arguments reg_class {E} _.
Arguments reg_members {E} _.

(** Modelled from the spec: the attribute hook of the registry is code of
    the external binding layer.  The registry exposes the named window
    constructors as callable attributes, and an unknown operation name is
    raised by the attribute lookup as a standard "no such attribute"
    error. *)
Definition __getattr__ {E} (r : Registry E) (name : string)
  : Result (Callable E) :=
  match reg_members r !! name with
  | Some c => Ok c
  | None => Raise (AttributeError (reg_class r) name)
  end.

(** The object [java.Packages(sc)], of which the module reads the
    attribute [Windows]. *)
Record PackagesObject (E : Type) : Type := {
  Windows : Registry E
}.
Arguments Windows {E} _.

(** The execution context, opaque to the module: all it is asked for is
    the packages object, which the binding layer may fail to give. *)
Record SparkContext (E : Type) : Type := {
  sc_packages : Result (PackagesObject E)
}.
Arguments sc_packages {E} _.

Module java.

(** Modelled from the spec: module [java] of the package is not among
    the sources.  [Packages(sc)] obtains the context-bound namespace of
    the engine, whose [Windows] member is the registry of window
    constructors; errors of the binding layer come out as raised. *)
Definition Packages {E} (sc : SparkContext E) : Result (PackagesObject E) :=
  sc_packages sc.

End java.

(** ** The monad of calls: state and exceptions *)

Definition M (E A : Type) : Type := State E -> Result A * State E.

Definition ret {E A} (a : A) : M E A := fun st => (Ok a, st).

Definition raise {E A} (e : PyExn) : M E A := fun st => (Raise e, st).

Definition lift {E A} (r : Result A) : M E A := fun st => (r, st).

Definition bind {E A B} (m : M E A) (k : A -> M E B) : M E B :=
  fun st =>
    match m st with
    | (Ok a, st') => k a st'
    | (Raise e, st') => (Raise e, st')
    end.

Notation "x <- m ;; k" := (bind m (fun x => k))
  (at level 100, m at next level, right associativity) : py_scope.

Local Open Scope py_scope.

(** [object.__new__(cls)]: a fresh object at the end of the heap. *)
Definition new_object {E} (c : Class) : M E addr :=
  fun st =>
    (Ok (length (heap st)),
     {| heap := heap st ++ [ {| __class__ := c; _func := None; _args := None |} ];
        engine := engine st |}).

(** Dereferencing [self].  A Python reference always has its object; the
    error is there for addresses that no call has returned. *)
Definition load {E} (self : addr) : M E Instance :=
  fun st =>
    match heap st !! self with
    | Some o => (Ok o, st)
    | None => (Raise (SystemError "no object at this address"), st)
    end.

Definition store {E} (self : addr) (o : Instance) : M E unit :=
  fun st => (Ok tt, {| heap := <[self := o]> (heap st); engine := engine st |}).

(** [self._func] and [self._args], read. *)
Definition get_func {E} (self : addr) : M E string :=
  o <- load self ;;
  match _func o with
  | Some f => ret f
  | None => raise (AttributeError (class_name (__class__ o)) "_func")
  end.

Definition get_args {E} (self : addr) : M E (list PyVal) :=
  o <- load self ;;
  match _args o with
  | Some a => ret a
  | None => raise (AttributeError (class_name (__class__ o)) "_args")
  end.

(** [self._func = v] and [self._args = v]. *)
Definition set_func {E} (self : addr) (v : string) : M E unit :=
  o <- load self ;;
  store self {| __class__ := __class__ o; _func := Some v; _args := _args o |}.

Definition set_args {E} (self : addr) (v : list PyVal) : M E unit :=
  o <- load self ;;
  store self {| __class__ := __class__ o; _func := _func o; _args := Some v |}.

(** Calling an external constructor with [*args]: it runs on the engine
    and leaves the heap alone. *)
Definition call {E} (c : Callable E) (args : list PyVal) : M E PyVal :=
  fun st =>
    let (r, e') := c args (engine st) in
    (r, {| heap := heap st; engine := e' |}).

(** ** The classes *)

Module WindowsFactoryBase.
Section Methods.

Context {E : Type}.

(** [self._java_cls] is looked up on the class of [self] when it is
    called; the table of the classes' definitions is closed below.  The
    value it returns has to offer the attribute hook [__getattr__]: a
    registry does, [None] does not. *)
Variable bound_java_cls :
  Class -> addr -> SparkContext E -> M E (option (Registry E)).

Definition __init__ (self : addr) (func : string) (args : list PyVal)
  : M E unit :=
  _ <- set_func self func ;;
  set_args self args.

(** The abstract method: its body is [pass], so it returns [None].  The
    [__metaclass__] attribute has no effect in Python 3, the dialect of
    the argument-less [super()], so nothing keeps this body from being
    called on a direct instance of the base class. *)
Definition _java_cls (self : addr) (sc : SparkContext E)
  : M E (option (Registry E)) :=
  ret None.

Definition _jwindow (self : addr) (sc : SparkContext E) : M E PyVal :=
  o <- load self ;;
  r <- bound_java_cls (__class__ o) self sc ;;
  match r with
  | None => raise (AttributeError "NoneType" "__getattr__")
  | Some reg =>
      f <- get_func self ;;
      c <- lift (__getattr__ reg f) ;;
      args <- get_args self ;;
      call c args
  end.

Definition __str__ (self : addr) : M E string :=
  f <- get_func self ;;
  args <- get_args self ;;
  strs <- lift (str_each args) ;;
  lift (format "%s(%s)" [VStr f; VStr (join ", " strs)]).

End Methods.
End WindowsFactoryBase.

Module WindowsFactory.
Section Methods.

Context {E : Type}.

Definition __init__ (self : addr) (func : string) (args : list PyVal)
  : M E unit :=
  WindowsFactoryBase.__init__ self func args.

Definition _java_cls (self : addr) (sc : SparkContext E)
  : M E (option (Registry E)) :=
  p <- lift (java.Packages sc) ;;
  ret (Some (Windows p)).

End Methods.
End WindowsFactory.

(** Method lookup by class. *)
Definition method_java_cls {E} (c : Class)
  : addr -> SparkContext E -> M E (option (Registry E)) :=
  match c with
  | WindowsFactoryBase => WindowsFactoryBase._java_cls
  | WindowsFactory => WindowsFactory._java_cls
  end.

Definition method_init {E} (c : Class)
  : addr -> string -> list PyVal -> M E unit :=
  match c with
  | WindowsFactoryBase => WindowsFactoryBase.__init__
  | WindowsFactory => WindowsFactory.__init__
  end.

(** The inherited methods, with the lookup of [_java_cls] closed. *)
Definition _jwindow {E} (self : addr) (sc : SparkContext E) : M E PyVal :=
  WindowsFactoryBase._jwindow method_java_cls self sc.

Definition __str__ {E} (self : addr) : M E string :=
  WindowsFactoryBase.__str__ self.

(** Calling a class: allocate, initialise, return the object. *)
Definition instantiate {E} (c : Class) (func : string) (args : list PyVal)
  : M E addr :=
  self <- new_object c ;;
  _ <- method_init c self func args ;;
  ret self.

(** ** The factory functions *)

Definition past_absolute_time {E} (duration : PyVal) : M E addr :=
  instantiate WindowsFactory "pastAbsoluteTime" [duration].

Definition future_absolute_time {E} (duration : PyVal) : M E addr :=
  instantiate WindowsFactory "futureAbsoluteTime" [duration].

(** ** The module's names *)

Definition __all__ : list string :=
  ["past_absolute_time"; "future_absolute_time"].

(** What a global name of the module is bound to. *)
Inductive Global (E : Type) : Type :=
| GImported
| GNames (names : list string)
| GClass (c : Class)
| GFunction (f : PyVal -> M E addr).
Arguments GImported {E}.
Arguments GNames {E} names.
Arguments GClass {E} c.
Arguments GFunction {E} f.

(** The module's globals, in the order the module binds them. *)
Definition module_globals {E} : list (string * Global E) :=
  [ ("java", GImported);
    ("abstractmethod", GImported);
    ("ABCMeta", GImported);
    ("__all__", GNames __all__);
    ("WindowsFactoryBase", GClass WindowsFactoryBase);
    ("WindowsFactory", GClass WindowsFactory);
    ("past_absolute_time", GFunction past_absolute_time);
    ("future_absolute_time", GFunction future_absolute_time) ].

Fixpoint lookup_global {E} (name : string) (g : list (string * Global E))
  : option (Global E) :=
  match g with
  | [] => None
  | (n, b) :: rest => if String.eqb n name then Some b else lookup_global name rest
  end.

(** The names a star import of the module binds: those of [__all__], each
    looked up in the module. *)
Fixpoint export_names {E} (names : list string) (g : list (string * Global E))
  : Result (list (string * Global E)) :=
  match names with
  | [] => Ok []
  | n :: rest =>
      match lookup_global n g with
      | Some b => (bs <~ export_names rest g ;; Ok ((n, b) :: bs))
      | None => Raise (AttributeError "module" n)
      end
  end.

Definition public_surface {E} : Result (list (string * Global E)) :=
  export_names __all__ module_globals.

(** * Properties *)

(** ** What a descriptor is *)

(** An initialised instance of [WindowsFactory], the one class the
    factory functions instantiate. *)
Definition descriptor (f : string) (args : list PyVal) : Instance :=
  {| __class__ := WindowsFactory; _func := Some f; _args := Some args |}.

(** [a] is a descriptor in [st] with operation name [f] and arguments
    [args]. *)
Definition is_descriptor {E} (st : State E) (a : addr)
    (f : string) (args : list PyVal) : Prop :=
  heap st !! a = Some (descriptor f args).

(** The rendering in the words of the specification: the operation name,
    an opening parenthesis, the converted arguments separated by a comma
    and a space, a closing parenthesis. *)
Definition render (f : string) (strs : list string) : string :=
  f +:+ "(" +:+ String.concat ", " strs +:+ ")".

(** The operations that are applied to a descriptor after construction. *)
Inductive Operation (E : Type) : Type :=
| Render (self : addr)
| Resolve (self : addr) (sc : SparkContext E).
Arguments Render {E} self.
Arguments Resolve {E} self sc.

(** The state after one operation, whatever it returned or raised. *)
Definition after {E} (op : Operation E) (st : State E) : State E :=
  match op with
  | Render self => snd (__str__ self st)
  | Resolve self sc => snd (_jwindow self sc st)
  end.

Definition after_all {E} (ops : list (Operation E)) (st : State E) : State E :=
  fold_left (fun s op => after op s) ops st.

(** ** A sample engine *)

(** An engine whose state counts the windows it has built.  Its window
    constructors take one duration string and reject everything else. *)
Definition sample_window (kind : string) : Callable nat :=
  fun args n =>
    match args with
    | [VStr EmptyString] =>
        (Raise (ExternalError "NumberFormatException" "format error"), n)
    | [VStr d] => (Ok (VObject n (Ok (kind +:+ " " +:+ d))), S n)
    | _ => (Raise (ExternalError "Py4JError" "no such constructor"), n)
    end.

Definition sample_registry : Registry nat :=
  {| reg_class := "JavaClass";
     reg_members :=
       <["pastAbsoluteTime" := sample_window "past"]>
         (<["futureAbsoluteTime" := sample_window "future"]> ∅) |}.

Definition sample_packages : PackagesObject nat :=
  {| Windows := sample_registry |}.

Definition sample_context : SparkContext nat :=
  {| sc_packages := Ok sample_packages |}.

(** A context whose gateway is gone. *)
Definition stopped_context : SparkContext nat :=
  {| sc_packages := Raise (ExternalError "Py4JNetworkError" "gateway is closed") |}.

Definition sample_state : State nat :=
  {| heap :=
       [ descriptor "pastAbsoluteTime" [VStr "1d"];
         descriptor "pastAbsoluteTime" [VStr "1d"];
         descriptor "rollingMedian" [VInt 5; VNone; VStr "x"];
         descriptor "futureAbsoluteTime" [VStr ""] ];
     engine := 0 |}.

(** The state after two calls of [past_absolute_time("1d")] on an empty
    heap. *)
Definition twice_state : State nat :=
  {| heap :=
       [ descriptor "pastAbsoluteTime" [VStr "1d"];
         descriptor "pastAbsoluteTime" [VStr "1d"] ];
     engine := 0 |}.

(** A heap with a direct instance of the base class, two descriptors
    whose arguments differ only in where the comma falls, and one with
    arguments that cannot be converted. *)
Definition mixed_state : State nat :=
  {| heap :=
       [ {| __class__ := WindowsFactoryBase;
            _func := Some "pastAbsoluteTime";
            _args := Some [VStr "1d"] |};
         descriptor "w" [VStr "a"; VInt 7];
         descriptor "w" [VStr "a, 7"];
         descriptor "w" [VInt 7;
                         VObject 1 (Raise (ValueError "boom"));
                         VObject 2 (Raise (ValueError "bam"))] ];
     engine := 0 |}.

(** ** Strings *)

Lemma string_app_assoc (s1 s2 s3 : string) :
  (s1 +:+ s2) +:+ s3 = s1 +:+ s2 +:+ s3.
Proof.
  induction s1 as [|c s1 IH]; [reflexivity|].
  change (String c ((s1 +:+ s2) +:+ s3) = String c (s1 +:+ s2 +:+ s3)).
  now rewrite IH.
Qed.

Lemma join_fold_prefix (sep p : string) (rest : list string) (x : string) :
  fold_left (fun acc y => acc +:+ sep +:+ y) rest (p +:+ x) =
  p +:+ fold_left (fun acc y => acc +:+ sep +:+ y) rest x.
Proof.
  revert x. induction rest as [|y rest IH]; intros x; cbn [fold_left];
    [reflexivity|].
  rewrite string_app_assoc. apply IH.
Qed.

(** The loop of [join] computes the separated concatenation. *)
Lemma join_concat (sep : string) (items : list string) :
  join sep items = String.concat sep items.
Proof.
  destruct items as [|x rest]; [reflexivity|].
  revert x. induction rest as [|y rest IH]; intros x; [reflexivity|].
  change (join sep (x :: y :: rest))
    with (fold_left (fun acc y => acc +:+ sep +:+ y) rest (x +:+ sep +:+ y)).
  change (String.concat sep (x :: y :: rest))
    with (x +:+ sep +:+ String.concat sep (y :: rest)).
  rewrite <- IH, <- string_app_assoc, join_fold_prefix.
  now rewrite string_app_assoc.
Qed.

(** The format of [__str__], applied to two strings. *)
Lemma format_func_args (f j : string) :
  format "%s(%s)" [VStr f; VStr j] = Ok (f +:+ "(" +:+ j +:+ ")").
Proof. reflexivity. Qed.

(** [str_each] succeeds exactly on the lists all of whose conversions
    succeed, with the converted strings in order. *)
Lemma str_each_Forall2 (args : list PyVal) (strs : list string) :
  str_each args = Ok strs <-> Forall2 (fun a s => str a = Ok s) args strs.
Proof.
  revert strs. induction args as [|a args IH]; intros strs; simpl.
  - split.
    + intros H. injection H as <-. constructor.
    + intros H. inversion H. reflexivity.
  - split.
    + destruct (str a) as [s|e] eqn:Ha; simpl; [|discriminate].
      destruct (str_each args) as [ss|e] eqn:Hs; simpl; [|discriminate].
      intros H. injection H as <-. constructor; [exact Ha|].
      apply IH. reflexivity.
    + intros H. inversion H as [|? s ? ss Ha Hrest]; subst.
      rewrite Ha. simpl. apply IH in Hrest. rewrite Hrest. reflexivity.
Qed.

(** ** The heap *)

Lemma heap_lookup_new (h : list Instance) (o : Instance) :
  (h ++ [o])%list !! length h = Some o.
Proof. now apply list_lookup_middle. Qed.

Lemma heap_insert_new (h : list Instance) (o o' : Instance) :
  <[length h := o']> (h ++ [o])%list = (h ++ [o'])%list.
Proof.
  rewrite insert_app_r_alt by lia.
  now rewrite Nat.sub_diag.
Qed.

(** Instantiation always succeeds: it appends the initialised object and
    leaves the rest of the heap and the engine as they were. *)
Lemma instantiate_ok {E} (c : Class) (f : string) (args : list PyVal)
    (st : State E) :
  instantiate c f args st =
    (Ok (length (heap st)),
     {| heap := heap st ++ [ {| __class__ := c; _func := Some f; _args := Some args |} ];
        engine := engine st |}).
Proof.
  unfold instantiate, bind, new_object, ret.
  assert (Hinit : forall st' : State E,
    heap st' = (heap st ++ [ {| __class__ := c; _func := None; _args := None |} ])%list ->
    method_init c (length (heap st)) f args st' =
      (Ok tt,
       {| heap := heap st ++ [ {| __class__ := c; _func := Some f; _args := Some args |} ];
          engine := engine st' |})).
  { intros [h' e'] Hh. simpl in Hh. subst h'.
    destruct c; unfold method_init, WindowsFactory.__init__,
      WindowsFactoryBase.__init__, set_func, set_args, bind, load, store;
      simpl; rewrite heap_lookup_new; simpl;
      rewrite heap_insert_new, heap_lookup_new; simpl;
      now rewrite heap_insert_new. }
  rewrite Hinit by reflexivity. reflexivity.
Qed.

(** What instantiating [WindowsFactory] returns is a descriptor with the
    name and the arguments given; the engine is not involved. *)
Lemma instantiate_descriptor {E} (f : string) (args : list PyVal)
    (st : State E) :
  exists a st',
    instantiate WindowsFactory f args st = (Ok a, st') /\
    is_descriptor st' a f args /\
    engine st' = engine st.
Proof.
  rewrite instantiate_ok. eexists _, _. split; [reflexivity|].
  split; [|reflexivity].
  unfold is_descriptor, descriptor. cbn [heap]. apply heap_lookup_new.
Qed.

(** ** Unfolding the methods on a descriptor *)

(** Rendering a descriptor: the conversions of the arguments, then the
    formatted string; the state stays as it is. *)
Lemma str_descriptor {E} (st : State E) (a : addr) (f : string)
    (args : list PyVal) :
  is_descriptor st a f args ->
  __str__ a st =
    (match str_each args with
     | Ok strs => Ok (render f strs)
     | Raise e => Raise e
     end, st).
Proof.
  unfold is_descriptor, descriptor. intros Ha.
  unfold __str__, WindowsFactoryBase.__str__, get_func, get_args, bind, load,
    lift, ret.
  rewrite Ha. cbn [_func _args]. rewrite Ha. cbn [_func _args].
  destruct (str_each args) as [strs|e]; [|reflexivity].
  rewrite format_func_args. unfold render. now rewrite join_concat.
Qed.

(** Resolving a descriptor: the three steps in the order the expression
    evaluates them. *)
Lemma jwindow_descriptor {E} (st : State E) (a : addr) (f : string)
    (args : list PyVal) (sc : SparkContext E) :
  is_descriptor st a f args ->
  _jwindow a sc st =
    match java.Packages sc with
    | Raise e => (Raise e, st)
    | Ok p =>
        match __getattr__ (Windows p) f with
        | Raise e => (Raise e, st)
        | Ok c => call c args st
        end
    end.
Proof.
  unfold is_descriptor, descriptor. intros Ha.
  unfold _jwindow, WindowsFactoryBase._jwindow, bind, load.
  rewrite Ha. cbn [__class__ method_java_cls].
  unfold WindowsFactory._java_cls, bind, lift, ret.
  destruct (java.Packages sc) as [p|e]; [|reflexivity].
  unfold get_func, get_args, bind, load, ret.
  rewrite Ha. cbn [_func _args].
  destruct (__getattr__ (Windows p) f) as [c|e]; [|reflexivity].
  rewrite Ha. reflexivity.
Qed.

(** Neither method writes to the heap, whatever [self] is and whatever
    comes out. *)
Lemma str_heap {E} (a : addr) (st : State E) :
  heap (snd (__str__ a st)) = heap st.
Proof.
  unfold __str__, WindowsFactoryBase.__str__, get_func, get_args, bind, load,
    lift, ret, raise.
  destruct (heap st !! a) as [[c [f|] [args|]]|] eqn:Ha; cbn [_func _args];
    try reflexivity.
  - rewrite Ha. cbn [_func _args].
    destruct (str_each args); reflexivity.
  - rewrite Ha. reflexivity.
Qed.

Lemma call_heap {E} (c : Callable E) (args : list PyVal) (st : State E) :
  heap (snd (call c args st)) = heap st.
Proof. unfold call. now destruct (c args (engine st)). Qed.

Lemma jwindow_heap {E} (a : addr) (sc : SparkContext E) (st : State E) :
  heap (snd (_jwindow a sc st)) = heap st.
Proof.
  unfold _jwindow, WindowsFactoryBase._jwindow, bind, load.
  destruct (heap st !! a) as [[c fo ao]|] eqn:Ha; [|reflexivity].
  cbn [__class__]. destruct c; cbn [method_java_cls].
  - reflexivity.
  - unfold WindowsFactory._java_cls, bind, lift, ret.
    destruct (java.Packages sc) as [p|e]; [|reflexivity].
    unfold get_func, get_args, bind, load, ret, raise. rewrite Ha.
    cbn [_func _args __class__].
    destruct fo as [f|]; [|reflexivity].
    destruct (__getattr__ (Windows p) f) as [k|e]; [|reflexivity].
    rewrite Ha. cbn [_args __class__].
    destruct ao as [args|]; [|reflexivity].
    apply call_heap.
Qed.

(** A direct instance of the base class has no registry to ask: its
    [_java_cls] returns [None], which has no attribute hook. *)
Lemma jwindow_base_instance {E} (st : State E) (a : addr) (o : Instance)
    (sc : SparkContext E) :
  heap st !! a = Some o ->
  __class__ o = WindowsFactoryBase ->
  _jwindow a sc st = (Raise (AttributeError "NoneType" "__getattr__"), st).
Proof.
  intros Ha Hc. unfold _jwindow, WindowsFactoryBase._jwindow, bind, load.
  rewrite Ha, Hc. reflexivity.
Qed.

Lemma after_heap {E} (op : Operation E) (st : State E) :
  heap (after op st) = heap st.
Proof. destruct op; [apply str_heap | apply jwindow_heap]. Qed.

Lemma after_all_heap {E} (ops : list (Operation E)) (st : State E) :
  heap (after_all ops st) = heap st.
Proof.
  revert st. induction ops as [|op ops IH]; intros st; [reflexivity|].
  unfold after_all in *. cbn [fold_left]. rewrite IH. apply after_heap.
Qed.

(** ** Creation *)

(** C1. For every duration string [d], [past_absolute_time(d)] returns a
    descriptor whose operation name is "pastAbsoluteTime" and whose
    captured arguments are the one-element tuple [(d,)]. *)
Theorem past_absolute_time_descriptor {E} (d : string) (st : State E) :
  exists a st',
    past_absolute_time (VStr d) st = (Ok a, st') /\
    is_descriptor st' a "pastAbsoluteTime" [VStr d].
Proof.
  destruct (instantiate_descriptor "pastAbsoluteTime" [VStr d] st)
    as (a & st' & Hc & Hd & _).
  now exists a, st'.
Qed.

(** C2. For every duration string [d], [future_absolute_time(d)] returns
    a descriptor whose operation name is "futureAbsoluteTime" and whose
    captured arguments are the one-element tuple [(d,)]. *)
Theorem future_absolute_time_descriptor {E} (d : string) (st : State E) :
  exists a st',
    future_absolute_time (VStr d) st = (Ok a, st') /\
    is_descriptor st' a "futureAbsoluteTime" [VStr d].
Proof.
  destruct (instantiate_descriptor "futureAbsoluteTime" [VStr d] st)
    as (a & st' & Hc & Hd & _).
  now exists a, st'.
Qed.

(** C5. For every value passed as the duration, of any type and any
    contents, both factory functions return a descriptor and do not
    raise; the value is stored as it came and the external engine, where
    durations are parsed, is not touched. *)
Theorem creation_never_raises {E} (duration : PyVal) (st : State E) :
  (exists a st',
     past_absolute_time duration st = (Ok a, st') /\
     is_descriptor st' a "pastAbsoluteTime" [duration] /\
     engine st' = engine st) /\
  (exists a st',
     future_absolute_time duration st = (Ok a, st') /\
     is_descriptor st' a "futureAbsoluteTime" [duration] /\
     engine st' = engine st).
Proof.
  split.
  - apply (instantiate_descriptor "pastAbsoluteTime" [duration] st).
  - apply (instantiate_descriptor "futureAbsoluteTime" [duration] st).
Qed.

(** ** Rendering *)

(** C6. The rendering of [past_absolute_time("1d")] is the string
    "pastAbsoluteTime(1d)"; in general a descriptor renders as its
    operation name followed by its converted arguments in parentheses,
    separated by a comma and a space. *)
Theorem str_past_absolute_time_1d {E} :
  (forall st : State E,
     exists a st',
       past_absolute_time (VStr "1d") st = (Ok a, st') /\
       __str__ a st' = (Ok "pastAbsoluteTime(1d)", st')) /\
  (forall (st : State E) a f args strs,
     is_descriptor st a f args ->
     Forall2 (fun x s => str x = Ok s) args strs ->
     __str__ a st = (Ok (render f strs), st)).
Proof.
  split.
  - intros st.
    destruct (instantiate_descriptor "pastAbsoluteTime" [VStr "1d"] st)
      as (a & st' & Hc & Hd & _).
    exists a, st'. split; [exact Hc|].
    now rewrite (str_descriptor _ _ _ _ Hd).
  - intros st a f args strs Hd Hs.
    rewrite (str_descriptor _ _ _ _ Hd).
    apply str_each_Forall2 in Hs. now rewrite Hs.
Qed.

Lemma str_past_absolute_time_1d_witness :
  __str__ 2 sample_state = (Ok "rollingMedian(5, None, x)", sample_state).
Proof.
  apply (proj2 (@str_past_absolute_time_1d nat) sample_state 2
           "rollingMedian" [VInt 5; VNone; VStr "x"] ["5"; "None"; "x"]).
  - reflexivity.
  - repeat constructor.
Defined.

(** C10. For every operation name [f] and every sequence of arguments, of
    any length, the descriptor constructed from them holds the arguments
    in the given order, and it renders as [f], an opening parenthesis, the
    string conversions of the arguments joined by a comma and a space, and
    a closing parenthesis; each argument goes through its own conversion,
    so the arguments need not be strings. *)
Theorem instantiate_stores_and_renders {E} (f : string) (args : list PyVal)
    (st : State E) :
  exists a st',
    instantiate WindowsFactory f args st = (Ok a, st') /\
    is_descriptor st' a f args /\
    forall strs,
      Forall2 (fun x s => str x = Ok s) args strs ->
      __str__ a st' = (Ok (f +:+ "(" +:+ String.concat ", " strs +:+ ")"), st').
Proof.
  destruct (instantiate_descriptor f args st) as (a & st' & Hc & Hd & _).
  exists a, st'. split; [exact Hc|]. split; [exact Hd|].
  intros strs Hs. rewrite (str_descriptor _ _ _ _ Hd).
  apply str_each_Forall2 in Hs. now rewrite Hs.
Qed.

Lemma instantiate_stores_and_renders_witness :
  exists a st',
    instantiate WindowsFactory "f" [VInt (-12); VBool true; VStr "1d"]
      sample_state = (Ok a, st') /\
    __str__ a st' = (Ok "f(-12, True, 1d)", st') /\
    (exists b st'',
       instantiate WindowsFactory "g" [] sample_state = (Ok b, st'') /\
       __str__ b st'' = (Ok "g()", st'')).
Proof.
  destruct (instantiate_stores_and_renders "f"
              [VInt (-12); VBool true; VStr "1d"] sample_state)
    as (a & st' & Hc & _ & Hr).
  exists a, st'. split; [exact Hc|]. split.
  - apply (Hr ["-12"; "True"; "1d"]). repeat constructor.
  - destruct (instantiate_stores_and_renders "g" [] sample_state)
      as (b & st'' & Hc' & _ & Hr').
    exists b, st''. split; [exact Hc'|].
    apply (Hr' []). constructor.
Defined.

(** ** Resolution *)

(** C3. For every descriptor and every context that gives a registry: if
    the operation name is not on the registry, resolution raises the
    attribute error that names the missing operation; if it is, resolution
    calls the registry's constructor of that name with the descriptor's
    arguments, in their captured order, and returns what the constructor
    returns. *)
Theorem resolve_looks_up_and_calls {E} (st : State E) (a : addr) (f : string)
    (args : list PyVal) (sc : SparkContext E) (p : PackagesObject E) :
  is_descriptor st a f args ->
  java.Packages sc = Ok p ->
  (reg_members (Windows p) !! f = None ->
   _jwindow a sc st = (Raise (AttributeError (reg_class (Windows p)) f), st)) /\
  (forall c : Callable E,
     reg_members (Windows p) !! f = Some c ->
     _jwindow a sc st =
       (fst (c args (engine st)),
        {| heap := heap st; engine := snd (c args (engine st)) |})).
Proof.
  intros Hd Hp. rewrite (jwindow_descriptor _ _ _ _ _ Hd), Hp.
  unfold __getattr__. split.
  - intros Hf. now rewrite Hf.
  - intros c Hf. rewrite Hf. unfold call.
    now destruct (c args (engine st)).
Qed.

Lemma resolve_looks_up_and_calls_witness :
  _jwindow 2 sample_context sample_state =
    (Raise (AttributeError "JavaClass" "rollingMedian"), sample_state) /\
  _jwindow 0 sample_context sample_state =
    (Ok (VObject 0 (Ok "past 1d")),
     {| heap := heap sample_state; engine := 1 |}).
Proof.
  split.
  - apply (proj1 (resolve_looks_up_and_calls sample_state 2 "rollingMedian"
             [VInt 5; VNone; VStr "x"] sample_context sample_packages
             eq_refl eq_refl)).
    vm_compute. reflexivity.
  - apply (proj2 (resolve_looks_up_and_calls sample_state 0 "pastAbsoluteTime"
             [VStr "1d"] sample_context sample_packages eq_refl eq_refl)
             (sample_window "past")).
    vm_compute. reflexivity.
Defined.

(** C4. For every descriptor and context, an error raised while the
    registry is obtained, by the lookup on the registry or by the
    constructor comes out of resolution as the same error: nothing is
    caught, wrapped or translated. *)
Theorem resolve_propagates_errors {E} (st : State E) (a : addr) (f : string)
    (args : list PyVal) (sc : SparkContext E) (e : PyExn) :
  is_descriptor st a f args ->
  (java.Packages sc = Raise e -> _jwindow a sc st = (Raise e, st)) /\
  (forall p,
     java.Packages sc = Ok p ->
     __getattr__ (Windows p) f = Raise e ->
     _jwindow a sc st = (Raise e, st)) /\
  (forall p c en,
     java.Packages sc = Ok p ->
     __getattr__ (Windows p) f = Ok c ->
     c args (engine st) = (Raise e, en) ->
     _jwindow a sc st = (Raise e, {| heap := heap st; engine := en |})).
Proof.
  intros Hd. rewrite (jwindow_descriptor _ _ _ _ _ Hd).
  split; [|split].
  - intros Hp. now rewrite Hp.
  - intros p Hp Hg. now rewrite Hp, Hg.
  - intros p c en Hp Hg Hc. rewrite Hp, Hg. unfold call. now rewrite Hc.
Qed.

Lemma resolve_propagates_errors_witness :
  _jwindow 3 sample_context sample_state =
    (Raise (ExternalError "NumberFormatException" "format error"),
     sample_state) /\
  _jwindow 3 stopped_context sample_state =
    (Raise (ExternalError "Py4JNetworkError" "gateway is closed"),
     sample_state).
Proof.
  split.
  - apply (proj2 (proj2 (resolve_propagates_errors sample_state 3
             "futureAbsoluteTime" [VStr ""] sample_context
             (ExternalError "NumberFormatException" "format error") eq_refl))
             sample_packages (sample_window "future") 0);
      vm_compute; reflexivity.
  - apply (proj1 (resolve_propagates_errors sample_state 3
             "futureAbsoluteTime" [VStr ""] stopped_context
             (ExternalError "Py4JNetworkError" "gateway is closed") eq_refl)).
    reflexivity.
Defined.

(** C7. Two descriptors with the same operation name and the same
    arguments resolve alike against the same context: the outcome depends
    on the captured name and arguments, on the context and on the engine,
    and not on which of the two objects is resolved. *)
Theorem resolve_ignores_identity {E} (st : State E) (a1 a2 : addr)
    (f : string) (args : list PyVal) (sc : SparkContext E) :
  is_descriptor st a1 f args ->
  is_descriptor st a2 f args ->
  _jwindow a1 sc st = _jwindow a2 sc st.
Proof.
  intros H1 H2.
  now rewrite (jwindow_descriptor _ _ _ _ _ H1), (jwindow_descriptor _ _ _ _ _ H2).
Qed.

Lemma resolve_ignores_identity_witness :
  (a1 <- past_absolute_time (VStr "1d") ;;
   a2 <- past_absolute_time (VStr "1d") ;;
   ret (a1, a2)) {| heap := []; engine := 0 |} = (Ok (0, 1), twice_state) /\
  0 <> 1 /\
  _jwindow 0 sample_context twice_state = _jwindow 1 sample_context twice_state.
Proof.
  split; [reflexivity|]. split; [discriminate|].
  apply (resolve_ignores_identity twice_state 0 1 "pastAbsoluteTime"
           [VStr "1d"] sample_context); reflexivity.
Defined.

(** ** Immutability *)

(** C8. A descriptor does not change after construction and keeps no
    reference to a context: whatever renderings and resolutions, against
    whatever contexts and however often, are applied to the objects of the
    heap, the heap is as before, every descriptor has the operation name
    and the arguments it had, and a later resolution sees of the earlier
    ones only the state of the engine. *)
Theorem descriptor_unchanged {E} (ops : list (Operation E)) (st : State E) :
  heap (after_all ops st) = heap st /\
  (forall a f args,
     is_descriptor st a f args -> is_descriptor (after_all ops st) a f args) /\
  (forall a sc,
     _jwindow a sc (after_all ops st) =
     _jwindow a sc {| heap := heap st; engine := engine (after_all ops st) |}).
Proof.
  pose proof (after_all_heap ops st) as Hh.
  split; [exact Hh|]. split.
  - intros a f args Hd. unfold is_descriptor in *. now rewrite Hh.
  - intros a sc. rewrite <- Hh. now destruct (after_all ops st).
Qed.

Lemma descriptor_unchanged_witness :
  is_descriptor
    (after_all [Resolve 0 sample_context; Render 0; Resolve 0 stopped_context;
                Resolve 0 sample_context] sample_state)
    0 "pastAbsoluteTime" [VStr "1d"] /\
  engine
    (after_all [Resolve 0 sample_context; Render 0; Resolve 0 stopped_context;
                Resolve 0 sample_context] sample_state) = 2.
Proof.
  split.
  - apply (proj1 (proj2 (descriptor_unchanged
             [Resolve 0 sample_context; Render 0; Resolve 0 stopped_context;
              Resolve 0 sample_context] sample_state))).
    reflexivity.
  - vm_compute. reflexivity.
Defined.

(** ** The public names *)

(** C9. The public surface of the module is exactly the two factory
    functions [past_absolute_time] and [future_absolute_time], and each of
    them returns a descriptor. *)
Theorem public_surface_is_two_factories {E} :
  @public_surface E =
    Ok [ ("past_absolute_time", GFunction past_absolute_time);
         ("future_absolute_time", GFunction future_absolute_time) ] /\
  (forall (duration : PyVal) (st : State E),
     exists a st' f,
       past_absolute_time duration st = (Ok a, st') /\
       is_descriptor st' a f [duration]) /\
  (forall (duration : PyVal) (st : State E),
     exists a st' f,
       future_absolute_time duration st = (Ok a, st') /\
       is_descriptor st' a f [duration]).
Proof.
  split; [reflexivity|].
  split; intros duration st.
  - destruct (instantiate_descriptor "pastAbsoluteTime" [duration] st)
      as (a & st' & Hc & Hd & _).
    now exists a, st', "pastAbsoluteTime".
  - destruct (instantiate_descriptor "futureAbsoluteTime" [duration] st)
      as (a & st' & Hc & Hd & _).
    now exists a, st', "futureAbsoluteTime".
Qed.

(** * Further properties of the module *)

(** ** Helpers *)

(** Rendering an initialised instance of either class. *)
Lemma str_instance {E} (st : State E) (a : addr) (c : Class) (f : string)
    (args : list PyVal) :
  heap st !! a = Some {| __class__ := c; _func := Some f; _args := Some args |} ->
  __str__ a st =
    (match str_each args with
     | Ok strs => Ok (render f strs)
     | Raise e => Raise e
     end, st).
Proof.
  intros Ha.
  unfold __str__, WindowsFactoryBase.__str__, get_func, get_args, bind, load,
    lift, ret.
  rewrite Ha. cbn [_func _args]. rewrite Ha. cbn [_func _args].
  destruct (str_each args) as [strs|e]; [|reflexivity].
  rewrite format_func_args. unfold render. now rewrite join_concat.
Qed.




(** Instantiation appends one object and keeps every other one. *)
Lemma instantiate_frame {E} (c : Class) (f : string) (args : list PyVal)
    (st : State E) :
  exists a st',
    instantiate c f args st = (Ok a, st') /\
    length (heap st') = S (length (heap st)) /\
    forall b o, heap st !! b = Some o -> heap st' !! b = Some o /\ b <> a.
Proof.
  rewrite instantiate_ok. eexists _, _. split; [reflexivity|].
  cbn [heap]. split.
  - rewrite length_app. cbn [length]. lia.
  - intros b o Hb. pose proof (lookup_lt_Some _ _ _ Hb) as Hlt. split.
    + now rewrite lookup_app_l.
    + lia.
Qed.

(** ** The base class *)

(** X1. Nothing enforces the abstract method: the base class can be
    instantiated, and the instance renders like any descriptor, but it
    cannot be resolved.  Against every context resolution raises the
    attribute error of [None], without the context being asked and with
    the state as it was. *)
Theorem base_instance_renders_but_cannot_resolve {E} (f : string)
    (args : list PyVal) (st : State E) :
  exists a st',
    instantiate WindowsFactoryBase f args st = (Ok a, st') /\
    (forall sc : SparkContext E,
       _jwindow a sc st' =
         (Raise (AttributeError "NoneType" "__getattr__"), st')) /\
    (forall strs,
       Forall2 (fun x s => str x = Ok s) args strs ->
       __str__ a st' = (Ok (render f strs), st')).
Proof.
  rewrite instantiate_ok. eexists _, _. split; [reflexivity|].
  set (st' := {| heap := _; engine := _ |}).
  assert (Ha : heap st' !! length (heap st) =
    Some {| __class__ := WindowsFactoryBase; _func := Some f; _args := Some args |})
    by apply heap_lookup_new.
  split.
  - intros sc. now apply (jwindow_base_instance st' _ _ sc Ha).
  - intros strs Hs. rewrite (str_instance _ _ _ _ _ Ha).
    apply str_each_Forall2 in Hs. now rewrite Hs.
Qed.

Lemma base_instance_renders_but_cannot_resolve_witness :
  exists a st',
    instantiate WindowsFactoryBase "pastAbsoluteTime" [VStr "1d"]
      {| heap := []; engine := 0 |} = (Ok a, st') /\
    _jwindow a sample_context st' =
      (Raise (AttributeError "NoneType" "__getattr__"), st') /\
    _jwindow a stopped_context st' =
      (Raise (AttributeError "NoneType" "__getattr__"), st') /\
    __str__ a st' = (Ok "pastAbsoluteTime(1d)", st').
Proof.
  destruct (base_instance_renders_but_cannot_resolve "pastAbsoluteTime"
              [VStr "1d"] {| heap := []; engine := 0 |})
    as (a & st' & Hc & Hr & Hs).
  exists a, st'. split; [exact Hc|].
  split; [apply Hr|]. split; [apply Hr|].
  apply (Hs ["1d"]). repeat constructor.
Defined.

(** ** More on rendering *)



(** X3. The rendering keeps neither the types of the arguments nor where
    one argument ends and the next begins: a descriptor renders exactly as
    the descriptor of the same name whose only argument is the string of
    its converted arguments joined by a comma and a space. *)
Theorem str_forgets_argument_boundaries {E} (st : State E) (a1 a2 : addr)
    (f : string) (args : list PyVal) (strs : list string) :
  is_descriptor st a1 f args ->
  Forall2 (fun x s => str x = Ok s) args strs ->
  is_descriptor st a2 f [VStr (String.concat ", " strs)] ->
  __str__ a1 st = __str__ a2 st.
Proof.
  intros H1 Hs H2.
  rewrite (str_descriptor _ _ _ _ H1), (str_descriptor _ _ _ _ H2).
  apply str_each_Forall2 in Hs. rewrite Hs. reflexivity.
Qed.

Lemma str_forgets_argument_boundaries_witness :
  __str__ 1 mixed_state = __str__ 2 mixed_state /\
  heap mixed_state !! 1 <> heap mixed_state !! 2.
Proof.
  split.
  - apply (str_forgets_argument_boundaries mixed_state 1 2 "w"
             [VStr "a"; VInt 7] ["a"; "7"]).
    + reflexivity.
    + repeat constructor.
    + reflexivity.
  - discriminate.
Defined.



(** ** More on creation *)

(** X5. A call of a factory function adds one object to the heap and
    changes nothing else: every object that was there is there unchanged,
    and the new descriptor is none of them. *)
Theorem creation_keeps_existing_objects {E} (duration : PyVal)
    (st : State E) :
  (exists a st',
     past_absolute_time duration st = (Ok a, st') /\
     length (heap st') = S (length (heap st)) /\
     forall b o, heap st !! b = Some o -> heap st' !! b = Some o /\ b <> a) /\
  (exists a st',
     future_absolute_time duration st = (Ok a, st') /\
     length (heap st') = S (length (heap st)) /\
     forall b o, heap st !! b = Some o -> heap st' !! b = Some o /\ b <> a).
Proof.
  split.
  - apply (instantiate_frame WindowsFactory "pastAbsoluteTime" [duration] st).
  - apply (instantiate_frame WindowsFactory "futureAbsoluteTime" [duration] st).
Qed.

Lemma creation_keeps_existing_objects_witness :
  exists a st',
    future_absolute_time (VStr "1d") twice_state = (Ok a, st') /\
    is_descriptor st' 0 "pastAbsoluteTime" [VStr "1d"] /\
    is_descriptor st' 1 "pastAbsoluteTime" [VStr "1d"] /\
    0 <> a /\ 1 <> a.
Proof.
  destruct (proj2 (creation_keeps_existing_objects (VStr "1d") twice_state))
    as (a & st' & Hc & _ & Hf).
  exists a, st'. split; [exact Hc|].
  destruct (Hf 0 (descriptor "pastAbsoluteTime" [VStr "1d"]) eq_refl)
    as [H0 N0].
  destruct (Hf 1 (descriptor "pastAbsoluteTime" [VStr "1d"]) eq_refl)
    as [H1 N1].
  repeat split; assumption.
Defined.

(** ** More on resolution *)

(** X6. A descriptor keeps no resolved window: resolving it a second time
    calls the constructor again, with the same arguments, on the engine as
    the first call left it. *)
Theorem resolve_twice_calls_twice {E} (st : State E) (a : addr) (f : string)
    (args : list PyVal) (sc : SparkContext E) (p : PackagesObject E)
    (c : Callable E) :
  is_descriptor st a f args ->
  java.Packages sc = Ok p ->
  reg_members (Windows p) !! f = Some c ->
  _jwindow a sc (snd (_jwindow a sc st)) =
    (fst (c args (snd (c args (engine st)))),
     {| heap := heap st;
        engine := snd (c args (snd (c args (engine st)))) |}).
Proof.
  intros Hd Hp Hf.
  assert (Hstep : forall s : State E,
    is_descriptor s a f args ->
    _jwindow a sc s =
      (fst (c args (engine s)),
       {| heap := heap s; engine := snd (c args (engine s)) |})).
  { intros s Hs. rewrite (jwindow_descriptor _ _ _ _ _ Hs), Hp.
    unfold __getattr__. rewrite Hf. unfold call.
    now destruct (c args (engine s)). }
  rewrite (Hstep st Hd). cbn [snd].
  rewrite Hstep by exact Hd. reflexivity.
Qed.

Lemma resolve_twice_calls_twice_witness :
  _jwindow 0 sample_context sample_state =
    (Ok (VObject 0 (Ok "past 1d")),
     {| heap := heap sample_state; engine := 1 |}) /\
  _jwindow 0 sample_context (snd (_jwindow 0 sample_context sample_state)) =
    (Ok (VObject 1 (Ok "past 1d")),
     {| heap := heap sample_state; engine := 2 |}).
Proof.
  split; [vm_compute; reflexivity|].
  apply (resolve_twice_calls_twice sample_state 0 "pastAbsoluteTime"
           [VStr "1d"] sample_context sample_packages (sample_window "past"));
    vm_compute; reflexivity.
Defined.

(** X7. Creating a window and resolving it is one call of the engine's
    constructor: [past_absolute_time] reaches the registry's
    [pastAbsoluteTime], [future_absolute_time] its [futureAbsoluteTime],
    each with the duration as the only argument and as it was given. *)
Theorem factories_resolve_to_their_constructors {E} (duration : PyVal)
    (st : State E) (sc : SparkContext E) (p : PackagesObject E) :
  java.Packages sc = Ok p ->
  (forall c : Callable E,
     reg_members (Windows p) !! "pastAbsoluteTime" = Some c ->
     (a <- past_absolute_time duration ;; _jwindow a sc) st =
       (fst (c [duration] (engine st)),
        {| heap := heap st ++ [descriptor "pastAbsoluteTime" [duration]];
           engine := snd (c [duration] (engine st)) |})) /\
  (forall c : Callable E,
     reg_members (Windows p) !! "futureAbsoluteTime" = Some c ->
     (a <- future_absolute_time duration ;; _jwindow a sc) st =
       (fst (c [duration] (engine st)),
        {| heap := heap st ++ [descriptor "futureAbsoluteTime" [duration]];
           engine := snd (c [duration] (engine st)) |})).
Proof.
  intros Hp.
  assert (Hgen : forall (f : string) (c : Callable E),
    reg_members (Windows p) !! f = Some c ->
    (a <- instantiate WindowsFactory f [duration] ;; _jwindow a sc) st =
      (fst (c [duration] (engine st)),
       {| heap := heap st ++ [descriptor f [duration]];
          engine := snd (c [duration] (engine st)) |})).
  { intros f c Hf. unfold bind at 1. rewrite instantiate_ok.
    set (st' := {| heap := _; engine := _ |}).
    assert (Hd : is_descriptor st' (length (heap st)) f [duration])
      by apply heap_lookup_new.
    rewrite (jwindow_descriptor _ _ _ _ _ Hd), Hp.
    unfold __getattr__. rewrite Hf. unfold call. cbn [engine heap st'].
    now destruct (c [duration] (engine st)). }
  split; intros c Hf; now apply Hgen.
Qed.

Lemma factories_resolve_to_their_constructors_witness :
  (a <- future_absolute_time (VStr "5 days") ;; _jwindow a sample_context)
    {| heap := []; engine := 0 |} =
    (Ok (VObject 0 (Ok "future 5 days")),
     {| heap := [descriptor "futureAbsoluteTime" [VStr "5 days"]];
        engine := 1 |}).
Proof.
  apply (proj2 (factories_resolve_to_their_constructors (VStr "5 days")
                  {| heap := []; engine := 0 |} sample_context sample_packages
                  eq_refl) (sample_window "future")).
  vm_compute. reflexivity.
Defined.
